(** * ospd-netstat: the [OSPDnetstat] wrapper of [ospd_netstat/wrapper.py]

    A shallow embedding of the scanner wrapper and the properties of its
    [check] and [exec_scan] methods.

    - Python [str] values are [string]s; a character is a code point below
      256.
    - The built-in string methods used by the wrapper ([split] without and
      with a separator, [join], [%d] and [format]) are given as functions.
    - The framework methods [add_scan_error], [add_scan_log] and
      [add_scan_host_detail] append to the list of entries of the scan; a
      method is a function from that list to an outcome and the new list.
    - A failing subscript raises [IndexError]; an exception leaves the
      entries recorded so far and ends the method. *)

From Stdlib Require Import ZArith Ascii DecimalString.
From stdpp Require Import gmap strings list.

Local Open Scope Z_scope.

(** ** Python strings *)

Module PyStr.

(** [str.isspace] on one character, for code points below 256: the
    characters 9 to 13, 28 to 32, 133 and 160. *)
Definition isspace (c : ascii) : bool :=
  match c with
  | "009" | "010" | "011" | "012" | "013"
  | "028" | "029" | "030" | "031" | " "
  | "133" | "160" => true
  | _ => false
  end%char.

(** [snoc s c] is [s] followed by the character [c]. *)
Definition snoc (s : string) (c : ascii) : string := s +:+ String c "".

(** The field read so far is kept only when it has a character. *)
Definition flush (cur : string) : list string :=
  match cur with
  | "" => []
  | _ => [cur]
  end.

(** [s.split()]: the maximal runs of characters that are not whitespace,
    in order. [cur] is the field being read. *)
Fixpoint split_from (cur : string) (s : string) : list string :=
  match s with
  | "" => flush cur
  | String c s' =>
      if isspace c then flush cur ++ split_from "" s'
      else split_from (snoc cur c) s'
  end.

Definition split (s : string) : list string := split_from "" s.

(** [s.split(sep)] for a separator of one character: the pieces between
    the occurrences of [sep], empty pieces included; never an empty list. *)
Fixpoint split_on_from (sep : ascii) (cur : string) (s : string)
  : list string :=
  match s with
  | "" => [cur]
  | String c s' =>
      if Ascii.eqb c sep then cur :: split_on_from sep "" s'
      else split_on_from sep (snoc cur c) s'
  end.

Definition split_on (sep : ascii) (s : string) : list string :=
  split_on_from sep "" s.

(** [sep.join(l)]. *)
Fixpoint join (sep : string) (l : list string) : string :=
  match l with
  | [] => ""
  | [x] => x
  | x :: xs => x +:+ sep +:+ join sep xs
  end.

(** ['%d' % n] for a length [n]. *)
Definition of_nat (n : nat) : string :=
  NilZero.string_of_uint (Nat.to_uint n).

(** The line feed character. *)
Definition nl : string := String "010"%char "".

(** No character of [s] is whitespace. *)
Fixpoint no_space (s : string) : bool :=
  match s with
  | "" => true
  | String c s' => negb (isspace c) && no_space s'
  end.

(** [upto sep s] is the part of [s] before the first [sep], and all of
    [s] when [sep] does not occur. *)
Fixpoint upto (sep : ascii) (s : string) : string :=
  match s with
  | "" => ""
  | String c s' => if Ascii.eqb c sep then "" else String c (upto sep s')
  end.

(** [after sep s] is the part of [s] behind the first [sep], when [sep]
    occurs. *)
Fixpoint after (sep : ascii) (s : string) : option string :=
  match s with
  | "" => None
  | String c s' => if Ascii.eqb c sep then Some s' else after sep s'
  end.

End PyStr.

(** A field of [split] has a character and no whitespace. *)
Definition is_field (w : string) : Prop :=
  w ≠ "" ∧ PyStr.no_space w = true.

(** ** Scan entries and methods *)

(** What a log entry carries: [add_scan_log] is called with [value=] or
    with [port=]. *)
Inductive payload : Type :=
| Value (v : string)
| Port (p : string).

(** The entries the framework records for a scan. *)
Inductive entry : Type :=
| ScanError (scan_id host value : string)
| ScanLog (scan_id host name : string) (what : payload)
| HostDetail (scan_id host name value : string).

Inductive exn : Type := IndexError.

Inductive outcome (A : Type) : Type :=
| Return (a : A)
| Raise (e : exn).

Arguments Return {A} a.
Arguments Raise {A} e.

(** A method runs on the entries recorded so far. *)
Definition M (A : Type) : Type := list entry -> outcome A * list entry.

Definition ret {A : Type} (a : A) : M A := fun s => (Return a, s).

Definition raise {A : Type} (e : exn) : M A := fun s => (Raise e, s).

Definition bind {A B : Type} (m : M A) (k : A -> M B) : M B :=
  fun s =>
    match m s with
    | (Return a, s') => k a s'
    | (Raise e, s') => (Raise e, s')
    end.

Notation "x <- m ;; k" := (bind m (fun x => k))
  (at level 100, m at next level, right associativity).
Notation "m ;; k" := (bind m (fun _ => k))
  (at level 100, right associativity).

(** [l[i]] for an index that is not negative. *)
Definition item {A : Type} (l : list A) (i : nat) : M A :=
  match l !! i with
  | Some x => ret x
  | None => raise IndexError
  end.

(** [for x in l: body(x)]. *)
Fixpoint for_each {A : Type} (l : list A) (body : A -> M unit) : M unit :=
  match l with
  | [] => ret tt
  | x :: l' => body x ;; for_each l' body
  end.

Definition add_scan_error (scan_id host value : string) : M unit :=
  fun s => (Return tt, s ++ [ScanError scan_id host value]).

Definition add_scan_log (scan_id host name : string) (what : payload)
  : M unit :=
  fun s => (Return tt, s ++ [ScanLog scan_id host name what]).

Definition add_scan_host_detail (scan_id host name value : string) : M unit :=
  fun s => (Return tt, s ++ [HostDetail scan_id host name value]).

(** ** The daemon *)

(** The daemon object: the fields [__init__] sets and the two inherited
    methods [exec_scan] calls. A boolean scanner parameter is stored as the
    integer 0 or 1 (the declared default of [dumptable] is 0), and
    [options.get] gives [None] for a missing key. [run_command] gives the
    output lines, or [None]. *)
Record OSPDnetstat : Type := {
  server_version : string;
  scanner_info : gmap string string;
  get_scan_options : string -> gmap string Z;
  run_command : string -> string -> string -> option (list string)
}.

Definition check (self : OSPDnetstat) : bool := true.

(** [x is 1]: the object is the integer 1. *)
Definition is_1 (x : option Z) : bool := bool_decide (x = Some 1).

(** The body of the parsing loop, lines 100 to 104, on the port list built
    so far. *)
Definition scan_line (line : string) (tcp_ports : list string)
  : M (list string) :=
  let words := PyStr.split (PyStr.join " " (PyStr.split line)) in
  if bool_decide (2 < length words)%nat then
    w0 <- item words 0 ;;
    if bool_decide (w0 = "tcp") then
      w3 <- item words 3 ;;
      port <- item (PyStr.split_on ":" w3) 1 ;;
      w3' <- item words 3 ;;
      addr <- item (PyStr.split_on ":" w3') 0 ;;
      if bool_decide (addr = "0.0.0.0")
      then ret (tcp_ports ++ [port])
      else ret tcp_ports
    else ret tcp_ports
  else ret tcp_ports.

(** [for line in result], lines 99 to 104. *)
Fixpoint scan_lines (result : list string) (tcp_ports : list string)
  : M (list string) :=
  match result with
  | [] => ret tcp_ports
  | line :: result' =>
      tcp_ports' <- scan_line line tcp_ports ;;
      scan_lines result' tcp_ports'
  end.

Definition summary_text (n : nat) : string :=
  "Via Netstat " +:+ PyStr.of_nat n
  +:+ " open tcp ports were found that are bound to local address 0.0.0.0.".

Definition dump_text (result : list string) : string :=
  "Raw netstat output:" +:+ PyStr.nl +:+ PyStr.nl +:+ PyStr.join "" result.

Definition exec_scan (self : OSPDnetstat) (scan_id target : string) : M Z :=
  let options := get_scan_options self scan_id in
  let dump := options !! "dumptable" in
  let result := run_command self scan_id target "netstat -tlpn" in
  match result with
  | None =>
      add_scan_error scan_id target
        "A problem occurred trying to execute 'netstat'." ;;
      add_scan_error scan_id target "The result of 'netstat' was empty." ;;
      ret 2
  | Some result =>
      tcp_ports <- scan_lines result [] ;;
      add_scan_log scan_id target "Netstat summary"
        (Value (summary_text (length tcp_ports))) ;;
      for_each tcp_ports (fun port =>
        add_scan_log scan_id target "Netstat port" (Port (port +:+ "/tcp"))) ;;
      (if is_1 dump
       then add_scan_log scan_id target "Netstat dump"
              (Value (dump_text result))
       else ret tt) ;;
      (if bool_decide (0 < length tcp_ports)%nat
       then
         add_scan_host_detail scan_id target "ports"
           (PyStr.join ", " tcp_ports) ;;
         add_scan_host_detail scan_id target "tcp_ports"
           (PyStr.join ", " tcp_ports)
       else ret tt) ;;
      ret 1
  end.

(** ** Reading the recorded entries *)

(** The payloads of the log entries named [name], in order. *)
Definition logs_named (name : string) (s : list entry) : list payload :=
  omap (fun e =>
          match e with
          | ScanLog _ _ n what => if bool_decide (n = name) then Some what else None
          | _ => None
          end) s.

(** The texts of the error entries, in order. *)
Definition errors (s : list entry) : list string :=
  omap (fun e => match e with ScanError _ _ v => Some v | _ => None end) s.

(** The host details as name and value, in order. *)
Definition host_details (s : list entry) : list (string * string) :=
  omap (fun e => match e with HostDetail _ _ n v => Some (n, v) | _ => None end) s.

(** A daemon whose framework gives the same options for every scan and the
    same command result for every host. *)
Definition daemon (options : gmap string Z) (result : option (list string))
  : OSPDnetstat :=
  {| server_version := "";
     scanner_info := ∅;
     get_scan_options := fun _ => options;
     run_command := fun _ _ _ => result |}.

(** ** What the parsing loop does with a line *)

(** The three things that can happen to a line in the loop. *)
Inductive line_kind : Type :=
| Skipped
| Found (port : string)
| Broken.

(** The loop body by cases on the fields of the line: the guard of line 101,
    the two subscripts of line 102 and the comparison of line 103. *)
Definition classify (line : string) : line_kind :=
  match PyStr.split line with
  | w0 :: _ :: _ :: rest =>
      if bool_decide (w0 = "tcp") then
        match rest with
        | [] => Broken
        | w3 :: _ =>
            match PyStr.after ":" w3 with
            | None => Broken
            | Some r =>
                if bool_decide (PyStr.upto ":" w3 = "0.0.0.0")
                then Found (PyStr.upto ":" r)
                else Skipped
            end
        end
      else Skipped
  | _ => Skipped
  end.

(** The ports of the lines that are [Found], in order. *)
Definition found_ports (result : list string) : list string :=
  omap (fun line => match classify line with Found p => Some p | _ => None end)
       result.

(** Whether some line of the result is [Broken]. *)
Definition has_broken (result : list string) : bool :=
  existsb (fun line => match classify line with Broken => true | _ => false end)
          result.

(** From the specification: a line qualifies when it has more than 2
    fields, its first field is [tcp] and the part of its fourth field before
    the first colon is [0.0.0.0]. *)
Definition qualifies (line : string) : Prop :=
  (2 < length (PyStr.split line))%nat ∧
  PyStr.split line !! 0%nat = Some "tcp" ∧
  PyStr.upto ":" <$> (PyStr.split line !! 3%nat) = Some "0.0.0.0".

(** ** The entries of a completed run *)

(** The entries of a run whose loop completed with [tcp_ports], lines 109 to
    127, in the order they are recorded. *)
Definition completed_entries (scan_id target : string) (dump : option Z)
  (result tcp_ports : list string) : list entry :=
  [ScanLog scan_id target "Netstat summary"
     (Value (summary_text (length tcp_ports)))]
  ++ ((fun port => ScanLog scan_id target "Netstat port" (Port (port +:+ "/tcp")))
        <$> tcp_ports)
  ++ (if is_1 dump
      then [ScanLog scan_id target "Netstat dump" (Value (dump_text result))]
      else [])
  ++ (if bool_decide (0 < length tcp_ports)%nat
      then [HostDetail scan_id target "ports" (PyStr.join ", " tcp_ports);
            HostDetail scan_id target "tcp_ports" (PyStr.join ", " tcp_ports)]
      else []).

(** ** Example inputs *)

Definition sshd_line : string := "tcp 0 0 0.0.0.0:22 0.0.0.0:* LISTEN 123/sshd".
Definition nginx_line : string := "tcp6 0 0 :::80 :::* LISTEN 456/nginx".

(** ** More readings of lines and entries *)

(** No character of [s] is [c]. *)
Fixpoint no_char (c : ascii) (s : string) : bool :=
  match s with
  | "" => true
  | String x s' => negb (Ascii.eqb x c) && no_char c s'
  end.

(** The fields of a line make line 102 raise: the guard of line 101 holds
    and either there is no [words[3]] or [words[3]] has no colon, so that
    its [split(":")] has no index 1. *)
Definition breaks (line : string) : Prop :=
  (2 < length (PyStr.split line))%nat ∧
  PyStr.split line !! 0%nat = Some "tcp" ∧
  (PyStr.split line !! 3%nat = None ∨
   ∃ w3, PyStr.split line !! 3%nat = Some w3 ∧ no_char ":" w3 = true).

(** The scan and the host an entry is recorded for. *)
Definition entry_ids (e : entry) : string * string :=
  match e with
  | ScanError scan_id host _ => (scan_id, host)
  | ScanLog scan_id host _ _ => (scan_id, host)
  | HostDetail scan_id host _ _ => (scan_id, host)
  end.

(** The two entries of a run whose command gave [None], lines 89 to 92. *)
Definition absent_entries (scan_id target : string) : list entry :=
  [ScanError scan_id target "A problem occurred trying to execute 'netstat'.";
   ScanError scan_id target "The result of 'netstat' was empty."].

(** The port log of a port text, line 115. *)
Definition port_log (port : string) : payload := Port (port +:+ "/tcp").

(** ** Facts on strings *)

Section string_facts.

Lemma app_cons (c : ascii) (s t : string) :
  String c s +:+ t = String c (s +:+ t).
Proof. reflexivity. Qed.

Lemma app_empty_l (t : string) : "" +:+ t = t.
Proof. reflexivity. Qed.

Lemma app_empty_r (s : string) : s +:+ "" = s.
Proof. induction s as [|c s IH]; [done|]. by rewrite app_cons, IH. Qed.

Lemma app_assoc_str (s t u : string) : (s +:+ t) +:+ u = s +:+ (t +:+ u).
Proof.
  induction s as [|c s IH]; [done|]. by rewrite !app_cons, IH.
Qed.

Lemma snoc_app (s : string) (c : ascii) (t : string) :
  PyStr.snoc s c +:+ t = s +:+ String c t.
Proof. unfold PyStr.snoc. by rewrite app_assoc_str. Qed.

Lemma snoc_not_empty (s : string) (c : ascii) : PyStr.snoc s c ≠ "".
Proof. by destruct s. Qed.

Lemma no_space_app (s t : string) :
  PyStr.no_space (s +:+ t) = PyStr.no_space s && PyStr.no_space t.
Proof.
  induction s as [|c s IH]; [done|].
  rewrite app_cons. simpl. rewrite IH. by destruct (PyStr.isspace c).
Qed.

Lemma no_space_snoc (s : string) (c : ascii) :
  PyStr.no_space s = true -> PyStr.isspace c = false ->
  PyStr.no_space (PyStr.snoc s c) = true.
Proof.
  intros Hs Hc. unfold PyStr.snoc. rewrite no_space_app, Hs. simpl.
  by rewrite Hc.
Qed.

Lemma flush_not_empty (w : string) : w ≠ "" -> PyStr.flush w = [w].
Proof. by destruct w. Qed.

Lemma flush_fields (cur : string) :
  PyStr.no_space cur = true -> Forall is_field (PyStr.flush cur).
Proof.
  intros H. destruct cur; simpl; [constructor|].
  constructor; [by split|constructor].
Qed.

Lemma split_from_fields (s cur : string) :
  PyStr.no_space cur = true -> Forall is_field (PyStr.split_from cur s).
Proof.
  revert cur. induction s as [|c s IH]; intros cur Hcur; simpl.
  - by apply flush_fields.
  - destruct (PyStr.isspace c) eqn:Hc.
    + apply Forall_app. split; [by apply flush_fields|by apply IH].
    + apply IH. by apply no_space_snoc.
Qed.

Lemma split_fields (s : string) : Forall is_field (PyStr.split s).
Proof. by apply split_from_fields. Qed.

(** Reading a run without whitespace extends the current field. *)
Lemma split_from_run (w cur s : string) :
  PyStr.no_space w = true ->
  PyStr.split_from cur (w +:+ s) = PyStr.split_from (cur +:+ w) s.
Proof.
  revert cur. induction w as [|c w IH]; intros cur Hw.
  - by rewrite app_empty_l, app_empty_r.
  - simpl in Hw. apply andb_true_iff in Hw as [Hc Hw].
    apply negb_true_iff in Hc.
    rewrite app_cons. simpl. rewrite Hc, IH by done.
    by rewrite snoc_app.
Qed.

(** Splitting the fields joined by one space gives the fields back. *)
Lemma split_join (ws : list string) :
  Forall is_field ws -> PyStr.split (PyStr.join " " ws) = ws.
Proof.
  unfold PyStr.split.
  induction ws as [|w ws IH]; intros Hws; [done|].
  apply Forall_cons in Hws as [[Hne Hw] Hws].
  destruct ws as [|w' ws].
  - simpl. rewrite <- (app_empty_r w) at 1.
    rewrite split_from_run by done. simpl. by apply flush_not_empty.
  - change (PyStr.join " " (w :: w' :: ws))
      with (w +:+ String " " (PyStr.join " " (w' :: ws))).
    rewrite split_from_run by done. rewrite app_empty_l.
    change (PyStr.split_from w (String " " (PyStr.join " " (w' :: ws))))
      with (PyStr.flush w ++ PyStr.split_from "" (PyStr.join " " (w' :: ws))).
    rewrite flush_not_empty by done. rewrite IH by done. done.
Qed.

(** The wrapper's [' '.join(line.split()).split()] is [line.split()]. *)
Lemma split_join_split (line : string) :
  PyStr.split (PyStr.join " " (PyStr.split line)) = PyStr.split line.
Proof. apply split_join, split_fields. Qed.

Lemma split_on_from_hd (sep : ascii) (s cur : string) :
  PyStr.split_on_from sep cur s !! 0%nat = Some (cur +:+ PyStr.upto sep s).
Proof.
  revert cur. induction s as [|c s IH]; intros cur; simpl.
  - by rewrite app_empty_r.
  - destruct (Ascii.eqb c sep); simpl.
    + by rewrite app_empty_r.
    + rewrite IH. by rewrite snoc_app.
Qed.

Lemma split_on_from_snd (sep : ascii) (s cur : string) :
  PyStr.split_on_from sep cur s !! 1%nat
  = PyStr.upto sep <$> PyStr.after sep s.
Proof.
  revert cur. induction s as [|c s IH]; intros cur; simpl; [done|].
  destruct (Ascii.eqb c sep); simpl; [|by apply IH].
  by rewrite (split_on_from_hd sep s "").
Qed.

End string_facts.

(** ** Facts on the parsing loop *)

Section loop_facts.

Lemma split_on_hd (w : string) :
  PyStr.split_on ":" w !! 0%nat = Some (PyStr.upto ":" w).
Proof. unfold PyStr.split_on. by rewrite split_on_from_hd. Qed.

Lemma split_on_snd (w : string) :
  PyStr.split_on ":" w !! 1%nat = PyStr.upto ":" <$> PyStr.after ":" w.
Proof. unfold PyStr.split_on. by rewrite split_on_from_snd. Qed.

Lemma scan_line_classify (line : string) (tcp_ports : list string)
  (s : list entry) :
  scan_line line tcp_ports s =
  match classify line with
  | Skipped => (Return tcp_ports, s)
  | Found p => (Return (tcp_ports ++ [p]), s)
  | Broken => (Raise IndexError, s)
  end.
Proof.
  unfold scan_line, classify. rewrite split_join_split.
  destruct (PyStr.split line) as [|w0 [|w1 [|w2 rest]]];
    try (case_bool_decide; [simpl in *; lia | done]).
  case_bool_decide; [|simpl in *; lia].
  unfold bind, item, ret, raise. simpl.
  case_bool_decide; [|done].
  destruct rest as [|w3 rest]; simpl; [done|].
  rewrite split_on_snd, split_on_hd.
  destruct (PyStr.after ":" w3) as [r|]; simpl; [|done].
  by case_bool_decide.
Qed.

(** The loop does not record entries. *)
Lemma scan_lines_entries (result : list string) (tcp_ports : list string)
  (s : list entry) :
  (scan_lines result tcp_ports s).2 = s.
Proof.
  revert tcp_ports. induction result as [|line result IH]; intros tcp_ports;
    [done|].
  simpl. unfold bind. rewrite scan_line_classify.
  destruct (classify line); simpl; auto.
Qed.

(** The loop completes when no line is [Broken], with the found ports. *)
Lemma scan_lines_completes (result : list string) (tcp_ports : list string)
  (s : list entry) :
  has_broken result = false ->
  scan_lines result tcp_ports s
  = (Return (tcp_ports ++ found_ports result), s).
Proof.
  revert tcp_ports. induction result as [|line result IH]; intros tcp_ports H.
  - simpl. unfold ret. by rewrite app_nil_r.
  - simpl in H. apply orb_false_iff in H as [Hl H].
    simpl. unfold bind, found_ports. rewrite scan_line_classify. simpl.
    destruct (classify line); try done.
    + by apply IH.
    + rewrite IH by done. by rewrite <- app_assoc.
Qed.

(** The loop raises [IndexError] when some line is [Broken]. *)
Lemma scan_lines_raises (result : list string) (tcp_ports : list string)
  (s : list entry) :
  has_broken result = true ->
  scan_lines result tcp_ports s = (Raise IndexError, s).
Proof.
  revert tcp_ports. induction result as [|line result IH]; intros tcp_ports H;
    [done|].
  simpl in H. simpl. unfold bind. rewrite scan_line_classify.
  destruct (classify line); simpl in H; try done; by apply IH.
Qed.

(** On a line that is not [Broken], being found is qualifying. *)
Lemma found_qualifies (line : string) :
  classify line ≠ Broken ->
  (∃ p, classify line = Found p) ↔ qualifies line.
Proof.
  unfold classify, qualifies.
  destruct (PyStr.split line) as [|w0 [|w1 [|w2 rest]]]; simpl;
    try (intros _; split; [by intros [? ?] | intros [? _]; lia]).
  case_bool_decide as Hw0.
  - destruct rest as [|w3 rest]; [done|]. simpl.
    destruct (PyStr.after ":" w3) as [r|]; [|done].
    intros _. case_bool_decide as Ha.
    + split; [|by eauto]. intros _. rewrite Ha, Hw0. split; [lia|done].
    + split; [by intros [? ?]|]. intros (_ & _ & ?). congruence.
  - intros _. split; [by intros [? ?]|]. intros (_ & ? & _). congruence.
Qed.

End loop_facts.

(** ** Facts on a run of [exec_scan] *)

Section run_facts.

Variables (self : OSPDnetstat) (scan_id target : string).

Lemma for_each_add_scan_log (name : string) (f : string -> payload)
  (l : list string) (s : list entry) :
  for_each l (fun x => add_scan_log scan_id target name (f x)) s
  = (Return tt, s ++ ((fun x => ScanLog scan_id target name (f x)) <$> l)).
Proof.
  revert s. induction l as [|x l IH]; intros s; simpl.
  - unfold ret. by rewrite app_nil_r.
  - unfold bind, add_scan_log. rewrite IH. by rewrite <- app_assoc.
Qed.

(** A run whose result has no [Broken] line returns 1 and records the
    entries of a completed run for the found ports. *)
Lemma exec_scan_completed (result : list string) (s : list entry) :
  run_command self scan_id target "netstat -tlpn" = Some result ->
  has_broken result = false ->
  exec_scan self scan_id target s
  = (Return 1,
     s ++ completed_entries scan_id target
            (get_scan_options self scan_id !! "dumptable")
            result (found_ports result)).
Proof.
  intros Hrun Hok. unfold exec_scan, completed_entries. rewrite Hrun.
  unfold bind at 1. rewrite scan_lines_completes by done. simpl.
  unfold bind at 1. unfold add_scan_log at 1.
  unfold bind at 1. rewrite for_each_add_scan_log.
  unfold bind, add_scan_log, add_scan_host_detail, ret.
  destruct (is_1 _); case_bool_decide; simpl;
    by rewrite <- ?app_assoc, ?app_nil_r.
Qed.

(** A run whose result has a [Broken] line raises [IndexError] and records
    nothing. *)
Lemma exec_scan_raised (result : list string) (s : list entry) :
  run_command self scan_id target "netstat -tlpn" = Some result ->
  has_broken result = true ->
  exec_scan self scan_id target s = (Raise IndexError, s).
Proof.
  intros Hrun Hbad. unfold exec_scan. rewrite Hrun.
  unfold bind at 1. by rewrite scan_lines_raises.
Qed.

End run_facts.


Section reading_facts.

Variables (scan_id target : string) (dump : option Z).
Variables (result tcp_ports : list string).

Lemma logs_named_app (name : string) (a b : list entry) :
  logs_named name (a ++ b) = logs_named name a ++ logs_named name b.
Proof. apply omap_app. Qed.

Lemma errors_app (a b : list entry) : errors (a ++ b) = errors a ++ errors b.
Proof. apply omap_app. Qed.

Lemma host_details_app (a b : list entry) :
  host_details (a ++ b) = host_details a ++ host_details b.
Proof. apply omap_app. Qed.

Lemma logs_named_same (name : string) (f : string -> payload)
  (l : list string) :
  logs_named name ((fun x => ScanLog scan_id target name (f x)) <$> l)
  = f <$> l.
Proof.
  unfold logs_named. induction l as [|x l IH]; csimpl; [done|].
  rewrite IH. by rewrite bool_decide_true.
Qed.

Lemma logs_named_other (name name' : string) (f : string -> payload)
  (l : list string) :
  name' ≠ name ->
  logs_named name ((fun x => ScanLog scan_id target name' (f x)) <$> l) = [].
Proof.
  intros Hne. unfold logs_named. induction l as [|x l IH]; csimpl; [done|].
  rewrite IH. by rewrite bool_decide_false.
Qed.

Lemma errors_logs (name : string) (f : string -> payload) (l : list string) :
  errors ((fun x => ScanLog scan_id target name (f x)) <$> l) = [].
Proof. unfold errors. induction l as [|x l IH]; csimpl; by rewrite ?IH. Qed.

Lemma host_details_logs (name : string) (f : string -> payload)
  (l : list string) :
  host_details ((fun x => ScanLog scan_id target name (f x)) <$> l) = [].
Proof.
  unfold host_details. induction l as [|x l IH]; csimpl; by rewrite ?IH.
Qed.

Lemma completed_summary :
  logs_named "Netstat summary"
    (completed_entries scan_id target dump result tcp_ports)
  = [Value (summary_text (length tcp_ports))].
Proof.
  unfold completed_entries.
  rewrite !logs_named_app, logs_named_other by done.
  destruct (is_1 dump); case_bool_decide; done.
Qed.

Lemma completed_ports :
  logs_named "Netstat port"
    (completed_entries scan_id target dump result tcp_ports)
  = (fun port => Port (port +:+ "/tcp")) <$> tcp_ports.
Proof.
  unfold completed_entries. rewrite !logs_named_app, logs_named_same.
  destruct (is_1 dump); case_bool_decide; simpl; by rewrite app_nil_r.
Qed.

Lemma completed_dump :
  logs_named "Netstat dump"
    (completed_entries scan_id target dump result tcp_ports)
  = if is_1 dump then [Value (dump_text result)] else [].
Proof.
  unfold completed_entries.
  rewrite !logs_named_app, logs_named_other by done.
  destruct (is_1 dump); case_bool_decide; done.
Qed.

Lemma completed_host_details :
  host_details (completed_entries scan_id target dump result tcp_ports)
  = if bool_decide (0 < length tcp_ports)%nat
    then [("ports", PyStr.join ", " tcp_ports);
          ("tcp_ports", PyStr.join ", " tcp_ports)]
    else [].
Proof.
  unfold completed_entries. rewrite !host_details_app, host_details_logs.
  destruct (is_1 dump); case_bool_decide; done.
Qed.

Lemma completed_errors :
  errors (completed_entries scan_id target dump result tcp_ports) = [].
Proof.
  unfold completed_entries. rewrite !errors_app, errors_logs.
  destruct (is_1 dump); case_bool_decide; done.
Qed.

End reading_facts.

(** ** Completed runs *)

Section completed_runs.

Variables (self : OSPDnetstat) (scan_id target : string).
Variables (result : list string) (s : list entry).
Hypothesis Hrun : run_command self scan_id target "netstat -tlpn" = Some result.
Hypothesis Hok : has_broken result = false.

(** Read back, a completed run has one summary with the number of found
    ports, one port log per found port in order, the dump when
    [dumptable] is 1, and the two host details when a port was found. *)
Lemma exec_scan_completed_reading :
  ∃ emitted,
    exec_scan self scan_id target s = (Return 1, s ++ emitted) ∧
    logs_named "Netstat summary" emitted
      = [Value (summary_text (length (found_ports result)))] ∧
    logs_named "Netstat port" emitted
      = (fun port => Port (port +:+ "/tcp")) <$> found_ports result ∧
    logs_named "Netstat dump" emitted
      = (if is_1 (get_scan_options self scan_id !! "dumptable")
         then [Value (dump_text result)] else []) ∧
    host_details emitted
      = (if bool_decide (0 < length (found_ports result))%nat
         then [("ports", PyStr.join ", " (found_ports result));
               ("tcp_ports", PyStr.join ", " (found_ports result))]
         else []) ∧
    errors emitted = [].
Proof.
  eexists. split; [by apply exec_scan_completed|].
  rewrite completed_summary, completed_ports, completed_dump,
    completed_host_details, completed_errors. done.
Qed.

(** In a completed run the found ports come from the qualifying lines. *)
Lemma completed_found_qualifies (line : string) :
  line ∈ result -> (∃ p, classify line = Found p) ↔ qualifies line.
Proof.
  intros Hin. apply found_qualifies. intros Hb.
  assert (has_broken result = true); [|congruence].
  unfold has_broken. apply existsb_exists. exists line.
  split; [by apply list_elem_of_In|by rewrite Hb].
Qed.

End completed_runs.

(** ** Lines that break the loop *)

Section broken_lines.

(** A line of exactly three fields that starts with ["tcp"] passes the
    guard of line 101 and has no [words[3]]. *)
Lemma three_fields_broken (line a b : string) :
  PyStr.split line = ["tcp"; a; b] -> classify line = Broken.
Proof. intros H. unfold classify. by rewrite H. Qed.

(** A ["tcp"] line whose fourth field has no colon has no
    [words[3].split(":")[1]]. *)
Lemma no_colon_broken (line w3 : string) :
  PyStr.split line !! 0%nat = Some "tcp" ->
  PyStr.split line !! 3%nat = Some w3 ->
  PyStr.after ":" w3 = None ->
  classify line = Broken.
Proof.
  intros H0 H3 Hw3. unfold classify.
  destruct (PyStr.split line) as [|w0 [|w1 [|w2 [|w3' ws]]]]; try done.
  simpl in H0, H3. injection H0 as ->. injection H3 as ->.
  by rewrite Hw3.
Qed.

Lemma has_broken_elem (result : list string) (line : string) :
  line ∈ result -> classify line = Broken -> has_broken result = true.
Proof.
  intros Hin Hb. unfold has_broken. apply existsb_exists. exists line.
  split; [by apply list_elem_of_In|by rewrite Hb].
Qed.

(** One such line anywhere in the result makes the whole scan raise
    [IndexError], with nothing recorded and no status returned. *)
Lemma exec_scan_broken_line (self : OSPDnetstat) (scan_id target : string)
  (result : list string) (line : string) (s : list entry) :
  run_command self scan_id target "netstat -tlpn" = Some result ->
  line ∈ result -> classify line = Broken ->
  exec_scan self scan_id target s = (Raise IndexError, s).
Proof.
  intros Hrun Hin Hb. apply (exec_scan_raised _ _ _ result); [done|].
  by apply (has_broken_elem _ line).
Qed.

End broken_lines.

Lemma sshd_line_fields :
  PyStr.split sshd_line
  = ["tcp"; "0"; "0"; "0.0.0.0:22"; "0.0.0.0:*"; "LISTEN"; "123/sshd"].
Proof. by vm_compute. Qed.

Lemma sshd_line_qualifies : qualifies sshd_line.
Proof.
  unfold qualifies. rewrite sshd_line_fields. simpl. split; [lia|done].
Qed.

(** ** Malformed lines *)

(** C1: the scan of the one line ["tcp 0 0"], which has exactly three
    fields, raises [IndexError] at [words[3]]; so does the scan of
    ["tcp 0 0 0.0.0.0 0.0.0.0:* LISTEN"], whose fourth field has no colon,
    at [split(":")[1]]. Neither line is skipped, nothing is recorded and no
    status is returned. *)
Theorem exec_scan_malformed_line_raises :
  PyStr.split "tcp 0 0" = ["tcp"; "0"; "0"] ∧
  exec_scan (daemon ∅ (Some ["tcp 0 0"])) "scan-1" "192.0.2.7" []
    = (Raise IndexError, []) ∧
  PyStr.split "tcp 0 0 0.0.0.0 0.0.0.0:* LISTEN" !! 3%nat = Some "0.0.0.0" ∧
  exec_scan (daemon ∅ (Some ["tcp 0 0 0.0.0.0 0.0.0.0:* LISTEN"]))
    "scan-1" "192.0.2.7" []
    = (Raise IndexError, []).
Proof. by vm_compute. Qed.

(** ** The dump of the raw output *)

(** C2: with [dumptable] set to 1 and the result ["tcp 0 0"], the scan
    raises [IndexError] in the loop, before line 119: no entry named
    ["Netstat dump"] is recorded. *)
Theorem exec_scan_dump_lost :
  let self := daemon {["dumptable" := 1]} (Some ["tcp 0 0"]) in
  get_scan_options self "scan-1" !! "dumptable" = Some 1 ∧
  exec_scan self "scan-1" "192.0.2.7" [] = (Raise IndexError, []) ∧
  logs_named "Netstat dump" (exec_scan self "scan-1" "192.0.2.7" []).2 = [].
Proof. by vm_compute. Qed.

(** ** The command could not be run *)

(** C3: when [run_command] gives [None], [exec_scan] returns 2 and records
    exactly two entries, both errors with different texts; no log entry of
    any name and no host detail is recorded. *)
Theorem exec_scan_absent (self : OSPDnetstat) (scan_id target : string)
  (s : list entry) :
  run_command self scan_id target "netstat -tlpn" = None ->
  ∃ emitted,
    exec_scan self scan_id target s = (Return 2, s ++ emitted) ∧
    emitted
      = [ScanError scan_id target
           "A problem occurred trying to execute 'netstat'.";
         ScanError scan_id target "The result of 'netstat' was empty."] ∧
    length (errors emitted) = 2%nat ∧
    (∀ name, logs_named name emitted = []) ∧
    host_details emitted = [].
Proof.
  intros Hrun. eexists. split.
  - unfold exec_scan. rewrite Hrun.
    unfold bind, add_scan_error, ret. by rewrite <- app_assoc.
  - done.
Qed.

Lemma exec_scan_absent_witness :
  run_command (daemon ∅ None) "scan-1" "192.0.2.7" "netstat -tlpn" = None ∧
  ∃ emitted,
    exec_scan (daemon ∅ None) "scan-1" "192.0.2.7" [] = (Return 2, [] ++ emitted) ∧
    emitted
      = [ScanError "scan-1" "192.0.2.7"
           "A problem occurred trying to execute 'netstat'.";
         ScanError "scan-1" "192.0.2.7" "The result of 'netstat' was empty."] ∧
    length (errors emitted) = 2%nat ∧
    (∀ name, logs_named name emitted = []) ∧
    host_details emitted = [].
Proof.
  split; [reflexivity|].
  apply (exec_scan_absent (daemon ∅ None) "scan-1" "192.0.2.7" []).
  reflexivity.
Defined.

(** ** Which lines are reported *)

(** C4: in the result of the two lines
    ["tcp 0 0 0.0.0.0:22 0.0.0.0:* LISTEN 123/sshd"] and ["tcp 0 0"] the
    first line has more than 2 fields, the first field ["tcp"] and the
    address ["0.0.0.0"], yet the scan raises [IndexError] on the second and
    records no port log for the first. *)
Theorem exec_scan_qualifying_line_unreported :
  let self :=
    daemon ∅ (Some ["tcp 0 0 0.0.0.0:22 0.0.0.0:* LISTEN 123/sshd"; "tcp 0 0"]) in
  qualifies "tcp 0 0 0.0.0.0:22 0.0.0.0:* LISTEN 123/sshd" ∧
  exec_scan self "scan-1" "192.0.2.7" [] = (Raise IndexError, []) ∧
  logs_named "Netstat port" (exec_scan self "scan-1" "192.0.2.7" []).2 = [].
Proof. split; [apply sshd_line_qualifies|by vm_compute]. Qed.

(** ** The summary and the status *)

(** C5: the result ["tcp 0 0"] has no qualifying line, and its scan raises
    [IndexError]: no entry named ["Netstat summary"] is recorded and the
    status 1 is not returned. *)
Theorem exec_scan_summary_lost :
  let self := daemon ∅ (Some ["tcp 0 0"]) in
  ¬ qualifies "tcp 0 0" ∧
  (exec_scan self "scan-1" "192.0.2.7" []).1 = Raise IndexError ∧
  logs_named "Netstat summary" (exec_scan self "scan-1" "192.0.2.7" []).2 = [].
Proof.
  split; [|by vm_compute].
  unfold qualifies. intros (_ & _ & H). by vm_compute in H.
Qed.

(** ** The port logs *)

(** C6: in the result of twice the line
    ["tcp 0 0 0.0.0.0:22 0.0.0.0:* LISTEN 123/sshd"] followed by ["tcp 0 0"]
    two lines qualify and the loop has found ["22"] twice when it raises
    [IndexError]: no port log is recorded. *)
Theorem exec_scan_port_logs_lost :
  let line := "tcp 0 0 0.0.0.0:22 0.0.0.0:* LISTEN 123/sshd" in
  let self := daemon ∅ (Some [line; line; "tcp 0 0"]) in
  qualifies line ∧
  scan_lines [line; line] [] [] = (Return ["22"; "22"], []) ∧
  exec_scan self "scan-1" "192.0.2.7" [] = (Raise IndexError, []) ∧
  logs_named "Netstat port" (exec_scan self "scan-1" "192.0.2.7" []).2 = [].
Proof. split; [apply sshd_line_qualifies|by vm_compute]. Qed.

(** ** The host details *)

(** C7: in the result of the lines
    ["tcp 0 0 0.0.0.0:22 0.0.0.0:* LISTEN 123/sshd"] and ["tcp 0 0"] the
    loop has found the port ["22"] when it raises [IndexError]: no host
    detail is recorded. *)
Theorem exec_scan_host_details_lost :
  let line := "tcp 0 0 0.0.0.0:22 0.0.0.0:* LISTEN 123/sshd" in
  let self := daemon ∅ (Some [line; "tcp 0 0"]) in
  scan_line line [] [] = (Return ["22"], []) ∧
  exec_scan self "scan-1" "192.0.2.7" [] = (Raise IndexError, []) ∧
  host_details (exec_scan self "scan-1" "192.0.2.7" []).2 = [].
Proof. by vm_compute. Qed.

(** ** The example of the specification *)

(** C8: on the lines ["tcp 0 0 0.0.0.0:22 0.0.0.0:* LISTEN 123/sshd"] and
    ["tcp6 0 0 :::80 :::* LISTEN 456/nginx"] the loop finds exactly the port
    ["22"] (the first field of the second line is ["tcp6"]), the summary
    states the count 1, one port log ["22/tcp"] is recorded, and the host
    details are [ports = "22"] and [tcp_ports = "22"]. *)
Theorem exec_scan_sshd_nginx (self : OSPDnetstat) (scan_id target : string)
  (s : list entry) :
  run_command self scan_id target "netstat -tlpn"
    = Some ["tcp 0 0 0.0.0.0:22 0.0.0.0:* LISTEN 123/sshd";
            "tcp6 0 0 :::80 :::* LISTEN 456/nginx"] ->
  PyStr.split "tcp6 0 0 :::80 :::* LISTEN 456/nginx" !! 0%nat = Some "tcp6" ∧
  scan_lines ["tcp 0 0 0.0.0.0:22 0.0.0.0:* LISTEN 123/sshd";
              "tcp6 0 0 :::80 :::* LISTEN 456/nginx"] [] s
    = (Return ["22"], s) ∧
  ∃ emitted,
    exec_scan self scan_id target s = (Return 1, s ++ emitted) ∧
    logs_named "Netstat summary" emitted
      = [Value "Via Netstat 1 open tcp ports were found that are bound to local address 0.0.0.0."] ∧
    logs_named "Netstat port" emitted = [Port "22/tcp"] ∧
    host_details emitted = [("ports", "22"); ("tcp_ports", "22")].
Proof.
  intros Hrun. split; [by vm_compute|]. split.
  - by rewrite scan_lines_completes by (by vm_compute).
  - destruct (exec_scan_completed_reading self scan_id target _ s Hrun)
      as (emitted & Hexec & Hsum & Hports & _ & Hdet & _); [by vm_compute|].
    exists emitted. split; [done|].
    rewrite Hsum, Hports, Hdet. by vm_compute.
Qed.

Lemma exec_scan_sshd_nginx_witness :
  run_command (daemon ∅ (Some [sshd_line; nginx_line])) "scan-1" "192.0.2.7"
    "netstat -tlpn"
    = Some ["tcp 0 0 0.0.0.0:22 0.0.0.0:* LISTEN 123/sshd";
            "tcp6 0 0 :::80 :::* LISTEN 456/nginx"] ∧
  (PyStr.split "tcp6 0 0 :::80 :::* LISTEN 456/nginx" !! 0%nat = Some "tcp6" ∧
   scan_lines ["tcp 0 0 0.0.0.0:22 0.0.0.0:* LISTEN 123/sshd";
               "tcp6 0 0 :::80 :::* LISTEN 456/nginx"] [] []
     = (Return ["22"], []) ∧
   ∃ emitted,
     exec_scan (daemon ∅ (Some [sshd_line; nginx_line])) "scan-1" "192.0.2.7" []
       = (Return 1, [] ++ emitted) ∧
     logs_named "Netstat summary" emitted
       = [Value "Via Netstat 1 open tcp ports were found that are bound to local address 0.0.0.0."] ∧
     logs_named "Netstat port" emitted = [Port "22/tcp"] ∧
     host_details emitted = [("ports", "22"); ("tcp_ports", "22")]).
Proof.
  split; [reflexivity|].
  apply (exec_scan_sshd_nginx (daemon ∅ (Some [sshd_line; nginx_line]))
           "scan-1" "192.0.2.7" []).
  reflexivity.
Defined.

(** ** The port text of a line *)

(** C9: for a line whose first field is ["tcp"] and whose fourth field is
    ["0.0.0.0:"] followed by [rest], the loop body appends exactly the part
    of [rest] before its first colon (all of [rest] when it has no colon):
    the text between the first and the second colon of the field. It may be
    empty, and what follows a second colon is dropped. A scan of that line
    alone records the port log of that text followed by ["/tcp"]. *)
Theorem scan_line_port_text (line rest : string) :
  PyStr.split line !! 0%nat = Some "tcp" ->
  PyStr.split line !! 3%nat = Some ("0.0.0.0:" +:+ rest) ->
  (∀ tcp_ports s,
     scan_line line tcp_ports s
     = (Return (tcp_ports ++ [PyStr.upto ":" rest]), s)) ∧
  (∀ self scan_id target s,
     run_command self scan_id target "netstat -tlpn" = Some [line] ->
     ∃ emitted,
       exec_scan self scan_id target s = (Return 1, s ++ emitted) ∧
       logs_named "Netstat port" emitted
         = [Port (PyStr.upto ":" rest +:+ "/tcp")]).
Proof.
  intros H0 H3.
  assert (classify line = Found (PyStr.upto ":" rest)) as Hfound.
  { unfold classify.
    destruct (PyStr.split line) as [|w0 [|w1 [|w2 [|w3 ws]]]]; try done.
    simpl in H0, H3. injection H0 as ->. injection H3 as ->. done. }
  split.
  - intros tcp_ports s. by rewrite scan_line_classify, Hfound.
  - intros self scan_id target s Hrun.
    destruct (exec_scan_completed_reading self scan_id target _ s Hrun)
      as (emitted & Hexec & _ & Hports & _).
    { simpl. by rewrite Hfound. }
    exists emitted. split; [done|].
    rewrite Hports. unfold found_ports. simpl. by rewrite Hfound.
Qed.

(** The port text is empty for ["0.0.0.0:"], and ["0.0.0.0:22:33"] gives
    ["22"]. *)
Lemma scan_line_port_text_witness :
  PyStr.split "tcp 0 0 0.0.0.0: 0.0.0.0:* LISTEN" !! 0%nat = Some "tcp" ∧
  PyStr.split "tcp 0 0 0.0.0.0: 0.0.0.0:* LISTEN" !! 3%nat
    = Some ("0.0.0.0:" +:+ "") ∧
  PyStr.upto ":" "" = "" ∧
  (∀ tcp_ports s,
     scan_line "tcp 0 0 0.0.0.0: 0.0.0.0:* LISTEN" tcp_ports s
     = (Return (tcp_ports ++ [PyStr.upto ":" ""]), s)) ∧
  (∀ self scan_id target s,
     run_command self scan_id target "netstat -tlpn"
       = Some ["tcp 0 0 0.0.0.0: 0.0.0.0:* LISTEN"] ->
     ∃ emitted,
       exec_scan self scan_id target s = (Return 1, s ++ emitted) ∧
       logs_named "Netstat port" emitted
         = [Port (PyStr.upto ":" "" +:+ "/tcp")]).
Proof.
  split; [reflexivity|]. split; [reflexivity|]. split; [reflexivity|].
  apply (scan_line_port_text "tcp 0 0 0.0.0.0: 0.0.0.0:* LISTEN" "");
    reflexivity.
Defined.

Example scan_line_second_colon (tcp_ports : list string) (s : list entry) :
  scan_line "tcp 0 0 0.0.0.0:22:33 0.0.0.0:* LISTEN" tcp_ports s
  = (Return (tcp_ports ++ ["22"]), s).
Proof. by rewrite scan_line_classify. Qed.

(** ** The availability probe *)

(** C10: [check] returns [True] for every daemon object; it reads neither
    the daemon nor any target host. *)
Theorem check_always_true (self : OSPDnetstat) : check self = true.
Proof. reflexivity. Qed.

(** ** More facts on strings *)

Section more_string_facts.

Lemma join_cons (sep x : string) (l : list string) :
  l ≠ [] -> PyStr.join sep (x :: l) = x +:+ sep +:+ PyStr.join sep l.
Proof. by destruct l. Qed.

Lemma split_on_from_not_nil (sep : ascii) (s cur : string) :
  PyStr.split_on_from sep cur s ≠ [].
Proof.
  revert cur. induction s as [|c s IH]; intros cur; simpl; [done|].
  destruct (Ascii.eqb c sep); [done|apply IH].
Qed.

Lemma split_on_from_join (sep : ascii) (s cur : string) :
  PyStr.join (String sep "") (PyStr.split_on_from sep cur s) = cur +:+ s.
Proof.
  revert cur. induction s as [|c s IH]; intros cur; simpl.
  - by rewrite app_empty_r.
  - destruct (Ascii.eqb c sep) eqn:Hc.
    + apply Ascii.eqb_eq in Hc as ->.
      rewrite join_cons by apply split_on_from_not_nil.
      by rewrite IH, app_cons, !app_empty_l.
    + by rewrite IH, snoc_app.
Qed.

Lemma no_char_app (c : ascii) (s t : string) :
  no_char c (s +:+ t) = no_char c s && no_char c t.
Proof.
  induction s as [|x s IH]; [done|].
  rewrite app_cons. simpl. rewrite IH. by destruct (Ascii.eqb x c).
Qed.

Lemma no_char_snoc (c x : ascii) (s : string) :
  no_char c s = true -> Ascii.eqb x c = false ->
  no_char c (PyStr.snoc s x) = true.
Proof.
  intros Hs Hx. unfold PyStr.snoc. rewrite no_char_app, Hs. simpl.
  by rewrite Hx.
Qed.

Lemma split_on_from_pieces (sep : ascii) (s cur : string) :
  no_char sep cur = true ->
  Forall (fun w => no_char sep w = true) (PyStr.split_on_from sep cur s).
Proof.
  revert cur. induction s as [|c s IH]; intros cur Hcur; simpl.
  - by constructor.
  - destruct (Ascii.eqb c sep) eqn:Hc.
    + constructor; [done|by apply IH].
    + apply IH. by apply no_char_snoc.
Qed.

Lemma no_char_upto (c : ascii) (s : string) :
  no_char c (PyStr.upto c s) = true.
Proof.
  induction s as [|x s IH]; [done|]. simpl.
  destruct (Ascii.eqb x c) eqn:Hx; [done|]. simpl. by rewrite Hx.
Qed.

Lemma no_space_upto (c : ascii) (s : string) :
  PyStr.no_space s = true -> PyStr.no_space (PyStr.upto c s) = true.
Proof.
  induction s as [|x s IH]; [done|]. simpl. intros H.
  apply andb_true_iff in H as [Hx Hs].
  destruct (Ascii.eqb x c); [done|]. simpl. by rewrite Hx, IH.
Qed.

(** A string with [c] is its part before the first [c], then [c], then its
    part behind. *)
Lemma after_upto (c : ascii) (s r : string) :
  PyStr.after c s = Some r -> s = PyStr.upto c s +:+ String c r.
Proof.
  induction s as [|x s IH]; [done|]. simpl.
  destruct (Ascii.eqb x c) eqn:Hx.
  - intros [= ->]. apply Ascii.eqb_eq in Hx as ->. done.
  - intros H. rewrite app_cons. f_equal. by apply IH.
Qed.

Lemma after_none (c : ascii) (s : string) :
  PyStr.after c s = None ↔ no_char c s = true.
Proof.
  induction s as [|x s IH]; [done|]. simpl.
  destruct (Ascii.eqb x c); simpl; [done|apply IH].
Qed.

Lemma no_space_after (c : ascii) (s r : string) :
  PyStr.no_space s = true -> PyStr.after c s = Some r ->
  PyStr.no_space r = true.
Proof.
  intros Hs Hr. rewrite (after_upto c s r Hr) in Hs.
  rewrite no_space_app in Hs. apply andb_true_iff in Hs as [_ Hs].
  simpl in Hs. by apply andb_true_iff in Hs as [_ Hs].
Qed.

Lemma snoc_inj (c : ascii) (s s' : string) :
  s +:+ String c "" = s' +:+ String c "" -> s = s'.
Proof.
  revert s'. induction s as [|x s IH]; intros [|x' s'] H; try done.
  - rewrite app_empty_l, app_cons in H. injection H as _ H. by destruct s'.
  - rewrite app_empty_l, app_cons in H. injection H as _ H. by destruct s.
  - rewrite !app_cons in H. injection H as -> H. f_equal. by apply IH.
Qed.

(** Two strings that agree up to their first space agree before it and
    behind it. *)
Lemma first_space (a b x y : string) :
  PyStr.no_space a = true -> PyStr.no_space b = true ->
  a +:+ String " " x = b +:+ String " " y -> a = b ∧ x = y.
Proof.
  revert b. induction a as [|c a IH]; intros [|d b] Ha Hb H.
  - rewrite !app_empty_l in H. by injection H as ->.
  - rewrite app_empty_l, app_cons in H. injection H as <- _. done.
  - rewrite app_empty_l, app_cons in H. injection H as -> _. done.
  - rewrite !app_cons in H. injection H as -> H.
    simpl in Ha, Hb. apply andb_true_iff in Ha as [_ Ha].
    apply andb_true_iff in Hb as [_ Hb].
    destruct (IH b Ha Hb H) as [-> ->]. done.
Qed.

(** A whitespace character ends the field being read. *)
Lemma split_from_space (c : ascii) (s1 s2 cur : string) :
  PyStr.isspace c = true ->
  PyStr.split_from cur (s1 +:+ String c s2)
  = PyStr.split_from cur s1 ++ PyStr.split s2.
Proof.
  intros Hc. revert cur. induction s1 as [|x s1 IH]; intros cur.
  - rewrite app_empty_l. simpl. by rewrite Hc.
  - rewrite app_cons. simpl. destruct (PyStr.isspace x).
    + by rewrite IH, app_assoc.
    + by rewrite IH.
Qed.

End more_string_facts.

(** ** More facts on the parsing loop and on runs *)

Section more_run_facts.

(** The join with [", "] of a list of at least one text without whitespace
    gives the list back. *)
Lemma join_comma_inj (l1 l2 : list string) :
  l1 ≠ [] -> l2 ≠ [] ->
  Forall (fun p => PyStr.no_space p = true) l1 ->
  Forall (fun p => PyStr.no_space p = true) l2 ->
  PyStr.join ", " l1 = PyStr.join ", " l2 -> l1 = l2.
Proof.
  revert l2. induction l1 as [|w1 l1 IH]; intros l2 Hne1 Hne2 H1 H2 Heq;
    [done|].
  destruct l2 as [|w2 l2]; [done|].
  apply Forall_cons in H1 as [Hw1 H1]. apply Forall_cons in H2 as [Hw2 H2].
  assert (∀ w x l, PyStr.no_space w = true ->
            PyStr.no_space (w +:+ ", " +:+ PyStr.join ", " (x :: l)) = false)
    as Hspace.
  { intros w x l Hw. rewrite no_space_app, Hw. done. }
  destruct l1 as [|x1 l1], l2 as [|x2 l2].
  - simpl in Heq. by rewrite Heq.
  - change (PyStr.join ", " [w1]) with w1 in Heq.
    rewrite (join_cons _ w2) in Heq by done.
    rewrite Heq, Hspace in Hw1 by done. done.
  - change (PyStr.join ", " [w2]) with w2 in Heq.
    rewrite (join_cons _ w1) in Heq by done.
    rewrite <- Heq, Hspace in Hw2 by done. done.
  - rewrite (join_cons _ w1), (join_cons _ w2) in Heq by done.
    assert (∀ w j, w +:+ ", " +:+ j = (w +:+ ",") +:+ String " " j) as Hsplit.
    { intros w j. by rewrite app_assoc_str. }
    rewrite !Hsplit in Heq.
    apply first_space in Heq as [Hw Hj].
    + apply snoc_inj in Hw as ->. f_equal. by apply IH.
    + rewrite no_space_app, Hw1. done.
    + rewrite no_space_app, Hw2. done.
Qed.

Lemma classify_broken_iff (line : string) :
  classify line = Broken ↔ breaks line.
Proof.
  unfold classify, breaks.
  destruct (PyStr.split line) as [|w0 [|w1 [|w2 rest]]]; simpl;
    try (split; [done | intros [? _]; lia]).
  case_bool_decide as Hw0.
  - destruct rest as [|w3 rest]; simpl.
    + split; [|done]. intros _. rewrite Hw0. split; [lia|]. split; [done|].
      by left.
    + destruct (PyStr.after ":" w3) as [r|] eqn:Hr.
      * split; [by case_bool_decide|].
        intros (_ & _ & [?|(w & [= <-] & Hw)]); [done|].
        apply after_none in Hw. congruence.
      * split; [|done]. intros _. rewrite Hw0. split; [lia|]. split; [done|].
        right. exists w3. split; [done|]. by apply after_none.
  - split; [done|]. intros (_ & ? & _). congruence.
Qed.

Lemma has_broken_iff (result : list string) :
  has_broken result = true ↔ ∃ line, line ∈ result ∧ breaks line.
Proof.
  unfold has_broken. rewrite existsb_exists. split.
  - intros (line & Hin & Hb). exists line.
    split; [by apply list_elem_of_In|].
    apply classify_broken_iff. by destruct (classify line).
  - intros (line & Hin & Hb). exists line.
    split; [by apply list_elem_of_In|].
    apply classify_broken_iff in Hb. by rewrite Hb.
Qed.

Lemma has_broken_false_iff (result : list string) :
  has_broken result = false ↔ Forall (fun line => ¬ breaks line) result.
Proof.
  rewrite Forall_forall. split.
  - intros H line Hin Hb.
    assert (has_broken result = true); [|congruence].
    apply has_broken_iff. eauto.
  - intros H. destruct (has_broken result) eqn:Hb; [|done].
    apply has_broken_iff in Hb as (line & Hin & Hb). by destruct (H line Hin).
Qed.

(** What makes a line [Found]. *)
Lemma classify_found (line p : string) :
  classify line = Found p ->
  ∃ rest,
    PyStr.split line !! 0%nat = Some "tcp" ∧
    PyStr.split line !! 3%nat = Some ("0.0.0.0:" +:+ rest) ∧
    p = PyStr.upto ":" rest ∧
    PyStr.no_space rest = true.
Proof.
  unfold classify. pose proof (split_fields line) as Hf.
  destruct (PyStr.split line) as [|w0 [|w1 [|w2 [|w3 ws]]]]; try done.
  - by case_bool_decide.
  - case_bool_decide as Hw0; [|done].
    destruct (PyStr.after ":" w3) as [r|] eqn:Hr; [|done].
    case_bool_decide as Ha; [|done]. intros [= <-].
    exists r. simpl. rewrite Hw0. split; [done|].
    rewrite (after_upto _ _ _ Hr) at 1. rewrite Ha. split; [done|].
    split; [done|].
    apply (no_space_after ":" w3); [|done].
    apply Forall_cons in Hf as [_ Hf]. apply Forall_cons in Hf as [_ Hf].
    apply Forall_cons in Hf as [_ Hf]. apply Forall_cons in Hf as [[_ Hf] _].
    done.
Qed.

Lemma found_ports_elem (result : list string) (p : string) :
  p ∈ found_ports result ->
  ∃ line, line ∈ result ∧ classify line = Found p.
Proof.
  unfold found_ports. intros (line & Hin & Hp)%list_elem_of_omap.
  exists line. split; [done|]. destruct (classify line); congruence.
Qed.

Lemma found_ports_app (r1 r2 : list string) :
  found_ports (r1 ++ r2) = found_ports r1 ++ found_ports r2.
Proof. apply omap_app. Qed.

Lemma exec_scan_none (self : OSPDnetstat) (scan_id target : string)
  (s : list entry) :
  run_command self scan_id target "netstat -tlpn" = None ->
  exec_scan self scan_id target s
  = (Return 2, s ++ absent_entries scan_id target).
Proof.
  intros Hrun. unfold exec_scan. rewrite Hrun.
  unfold bind, add_scan_error, ret, absent_entries. by rewrite <- app_assoc.
Qed.

(** The three ways a run can go. *)
Lemma exec_scan_cases (self : OSPDnetstat) (scan_id target : string)
  (s : list entry) :
  (run_command self scan_id target "netstat -tlpn" = None ∧
   exec_scan self scan_id target s
   = (Return 2, s ++ absent_entries scan_id target)) ∨
  (∃ result,
     run_command self scan_id target "netstat -tlpn" = Some result ∧
     has_broken result = true ∧
     exec_scan self scan_id target s = (Raise IndexError, s)) ∨
  (∃ result,
     run_command self scan_id target "netstat -tlpn" = Some result ∧
     has_broken result = false ∧
     exec_scan self scan_id target s
     = (Return 1,
        s ++ completed_entries scan_id target
               (get_scan_options self scan_id !! "dumptable")
               result (found_ports result))).
Proof.
  destruct (run_command self scan_id target "netstat -tlpn") as [result|]
    eqn:Hrun.
  - right. destruct (has_broken result) eqn:Hb.
    + left. exists result. eauto using exec_scan_raised.
    + right. exists result. eauto using exec_scan_completed.
  - left. eauto using exec_scan_none.
Qed.

End more_run_facts.

(** ** Further properties of the wrapper *)

(** X1: the words of line 100, [' '.join(line.split()).split()], are the
    fields [line.split()] themselves; each of them has a character and no
    whitespace. *)
Theorem words_are_fields (line : string) :
  PyStr.split (PyStr.join " " (PyStr.split line)) = PyStr.split line ∧
  Forall (fun w => w ≠ "" ∧ PyStr.no_space w = true)
    (PyStr.split (PyStr.join " " (PyStr.split line))).
Proof.
  split; [apply split_join_split|].
  rewrite split_join_split. apply split_fields.
Qed.

(** X2: a line of at most two fields (an empty or blank line among them), or
    whose first field is not ["tcp"], passes the loop body without an
    exception and leaves the port list as it was. *)
Theorem scan_line_skips (line : string) :
  (length (PyStr.split line) ≤ 2)%nat ∨ PyStr.split line !! 0%nat ≠ Some "tcp" ->
  ∀ tcp_ports s, scan_line line tcp_ports s = (Return tcp_ports, s).
Proof.
  intros H tcp_ports s. rewrite scan_line_classify.
  assert (classify line = Skipped) as ->; [|done].
  unfold classify.
  destruct (PyStr.split line) as [|w0 [|w1 [|w2 rest]]]; try done.
  destruct H as [H|H]; [simpl in H; lia|].
  case_bool_decide as Hw0; [|done]. simpl in H. congruence.
Qed.

Lemma scan_line_skips_witness :
  ((length (PyStr.split "   ") ≤ 2)%nat
   ∨ PyStr.split "   " !! 0%nat ≠ Some "tcp") ∧
  ∀ tcp_ports s, scan_line "   " tcp_ports s = (Return tcp_ports, s).
Proof.
  split; [left; vm_compute; lia|].
  apply (scan_line_skips "   "). left. vm_compute. lia.
Defined.

(** X3: [exec_scan] raises [IndexError] exactly when the command gave a
    result with a line that has more than two fields, the first field
    ["tcp"], and no fourth field or a fourth field without a colon. *)
Theorem exec_scan_raises_iff (self : OSPDnetstat) (scan_id target : string)
  (s : list entry) :
  (exec_scan self scan_id target s).1 = Raise IndexError ↔
  ∃ result line,
    run_command self scan_id target "netstat -tlpn" = Some result ∧
    line ∈ result ∧ breaks line.
Proof.
  split.
  - intros H.
    destruct (exec_scan_cases self scan_id target s)
      as [[_ He]|[(result & Hrun & Hb & _)|(result & _ & _ & He)]];
      [by rewrite He in H| |by rewrite He in H].
    apply has_broken_iff in Hb as (line & Hin & Hb). eauto.
  - intros (result & line & Hrun & Hin & Hb).
    rewrite (exec_scan_raised _ _ _ result); [done..|].
    apply has_broken_iff. eauto.
Qed.

(** X4: [exec_scan] only appends: started on the entries [s] it gives the
    outcome of a start on no entries, and [s] followed by the entries of
    that start. An exception records nothing. *)
Theorem exec_scan_appends (self : OSPDnetstat) (scan_id target : string)
  (s : list entry) :
  exec_scan self scan_id target s
  = ((exec_scan self scan_id target []).1,
     s ++ (exec_scan self scan_id target []).2) ∧
  ((exec_scan self scan_id target s).1 = Raise IndexError ->
   (exec_scan self scan_id target s).2 = s).
Proof.
  destruct (run_command self scan_id target "netstat -tlpn") as [result|]
    eqn:Hrun.
  - destruct (has_broken result) eqn:Hb.
    + rewrite !(exec_scan_raised _ _ _ result) by done. simpl.
      by rewrite app_nil_r.
    + rewrite !(exec_scan_completed _ _ _ result) by done. done.
  - rewrite !exec_scan_none by done. done.
Qed.

(** X5: every entry a run records is for the scan and the host
    [exec_scan] was called with. *)
Theorem exec_scan_entry_ids (self : OSPDnetstat) (scan_id target : string) :
  Forall (fun e => entry_ids e = (scan_id, target))
    (exec_scan self scan_id target []).2.
Proof.
  destruct (exec_scan_cases self scan_id target [])
    as [[_ He]|[(result & _ & _ & He)|(result & _ & _ & He)]];
    rewrite He; simpl.
  - by repeat constructor.
  - constructor.
  - constructor; [done|]. rewrite !Forall_app. split; [|split].
    + apply Forall_fmap. by apply Forall_true.
    + destruct (is_1 _); by repeat constructor.
    + case_bool_decide; by repeat constructor.
Qed.

(** X6: [exec_scan] returns 2 exactly when the command gave [None], and 1
    exactly when it gave a result none of whose lines has more than two
    fields, the first field ["tcp"] and no colon in a fourth field; it
    returns no other status. *)
Theorem exec_scan_status (self : OSPDnetstat) (scan_id target : string)
  (s : list entry) :
  ((exec_scan self scan_id target s).1 = Return 2 ↔
   run_command self scan_id target "netstat -tlpn" = None) ∧
  ((exec_scan self scan_id target s).1 = Return 1 ↔
   ∃ result,
     run_command self scan_id target "netstat -tlpn" = Some result ∧
     Forall (fun line => ¬ breaks line) result) ∧
  (∀ c, (exec_scan self scan_id target s).1 = Return c -> c = 1 ∨ c = 2).
Proof.
  destruct (exec_scan_cases self scan_id target s)
    as [[Hrun He]|[(result & Hrun & Hb & He)|(result & Hrun & Hb & He)]];
    rewrite He, Hrun; simpl.
  - split; [done|]. split; [|intros c [= <-]; by right].
    split; [done|]. by intros (? & ? & _).
  - split; [done|]. split; [|done].
    split; [done|]. intros (r & [= <-] & Hr).
    apply has_broken_false_iff in Hr. congruence.
  - split; [done|]. split; [|intros c [= <-]; by left].
    split; [|done]. intros _. exists result. split; [done|].
    by apply has_broken_false_iff.
Qed.

(** X7: whatever the command gave, the entries of a run are consistent:
    either no log and no host detail is recorded, or exactly one summary is,
    its count is the number of port logs, the port logs are those of a port
    list in order, no error is recorded, and the two host details hold the
    join of that list exactly when the list is not empty. *)
Theorem exec_scan_entries_consistent (self : OSPDnetstat)
  (scan_id target : string) :
  let e := (exec_scan self scan_id target []).2 in
  (logs_named "Netstat summary" e = [] ∧ logs_named "Netstat port" e = [] ∧
   logs_named "Netstat dump" e = [] ∧ host_details e = []) ∨
  (∃ ports,
     logs_named "Netstat summary" e = [Value (summary_text (length ports))] ∧
     logs_named "Netstat port" e = port_log <$> ports ∧
     length (logs_named "Netstat port" e) = length ports ∧
     host_details e
       = (if bool_decide (ports = []) then []
          else [("ports", PyStr.join ", " ports);
                ("tcp_ports", PyStr.join ", " ports)]) ∧
     errors e = []).
Proof.
  destruct (exec_scan_cases self scan_id target [])
    as [[_ He]|[(result & _ & _ & He)|(result & _ & _ & He)]];
    rewrite He; cbn [snd]; rewrite ?app_nil_l.
  - by left.
  - by left.
  - right. exists (found_ports result).
    rewrite completed_summary, completed_ports, completed_host_details,
      completed_errors, length_fmap.
    repeat split; try done.
    by destruct (found_ports result).
Qed.

(** X8: every port log of a run comes from a line of the command's result
    whose first field is ["tcp"] and whose fourth field is ["0.0.0.0:"]
    followed by some [rest]; the log is the part of [rest] before its first
    colon, followed by ["/tcp"]. No other line is ever reported. *)
Theorem exec_scan_port_logs_sound (self : OSPDnetstat)
  (scan_id target : string) :
  Forall (fun x =>
            ∃ result line rest,
              run_command self scan_id target "netstat -tlpn" = Some result ∧
              line ∈ result ∧
              PyStr.split line !! 0%nat = Some "tcp" ∧
              PyStr.split line !! 3%nat = Some ("0.0.0.0:" +:+ rest) ∧
              x = Port (PyStr.upto ":" rest +:+ "/tcp"))
    (logs_named "Netstat port" (exec_scan self scan_id target []).2).
Proof.
  destruct (exec_scan_cases self scan_id target [])
    as [[_ He]|[(result & _ & _ & He)|(result & Hrun & _ & He)]];
    rewrite He; cbn [snd]; rewrite ?app_nil_l; try by constructor.
  rewrite completed_ports. apply Forall_fmap, Forall_forall.
  intros p (line & Hin & Hp)%found_ports_elem.
  apply classify_found in Hp as (rest & H0 & H3 & -> & _).
  exists result, line, rest. done.
Qed.

(** X9: the port text of every port log has no colon and no whitespace. *)
Theorem exec_scan_port_text_shape (self : OSPDnetstat)
  (scan_id target : string) :
  Forall (fun x =>
            ∃ p, x = Port (p +:+ "/tcp") ∧
                 no_char ":" p = true ∧ PyStr.no_space p = true)
    (logs_named "Netstat port" (exec_scan self scan_id target []).2).
Proof.
  destruct (exec_scan_cases self scan_id target [])
    as [[_ He]|[(result & _ & _ & He)|(result & Hrun & _ & He)]];
    rewrite He; cbn [snd]; rewrite ?app_nil_l; try by constructor.
  rewrite completed_ports. apply Forall_fmap, Forall_forall.
  intros p (line & Hin & Hp)%found_ports_elem.
  apply classify_found in Hp as (rest & _ & _ & -> & Hrest).
  eexists. split; [done|]. split; [apply no_char_upto|by apply no_space_upto].
Qed.

(** X10: two loops that complete with port lists that are not empty and
    have the same join with [", "] have the same port list: the value of the
    host detail ["ports"] determines the ports it was built from. *)
Theorem ports_detail_determines_ports (r1 r2 : list string)
  (p1 p2 : list string) (s1 s2 : list entry) :
  scan_lines r1 [] s1 = (Return p1, s1) ->
  scan_lines r2 [] s2 = (Return p2, s2) ->
  p1 ≠ [] -> p2 ≠ [] ->
  PyStr.join ", " p1 = PyStr.join ", " p2 ->
  p1 = p2.
Proof.
  assert (∀ r p s, scan_lines r [] s = (Return p, s) ->
            Forall (fun x => PyStr.no_space x = true) p) as Hshape.
  { intros r p s H. destruct (has_broken r) eqn:Hb.
    - by rewrite scan_lines_raises in H.
    - rewrite scan_lines_completes in H by done. injection H as <-.
      apply Forall_forall. intros x (line & _ & Hx)%found_ports_elem.
      apply classify_found in Hx as (rest & _ & _ & -> & Hrest).
      by apply no_space_upto. }
  intros H1 H2 Hne1 Hne2 Heq.
  apply join_comma_inj; eauto.
Qed.

Lemma ports_detail_determines_ports_witness :
  scan_lines ["tcp 0 0 0.0.0.0:22 0.0.0.0:* LISTEN 1/sshd";
              "tcp 0 0 0.0.0.0:80 0.0.0.0:* LISTEN 2/nginx"] [] []
    = (Return ["22"; "80"], []) ∧
  scan_lines ["udp 0 0 0.0.0.0:53 0.0.0.0:*";
              "tcp  0  0  0.0.0.0:22:9  0.0.0.0:*  LISTEN";
              "tcp 0 0 127.0.0.1:25 0.0.0.0:* LISTEN";
              "tcp 0 0 0.0.0.0:80 0.0.0.0:* LISTEN"] [] []
    = (Return ["22"; "80"], []) ∧
  ["22"; "80"] ≠ [] ∧ ["22"; "80"] ≠ [] ∧
  PyStr.join ", " ["22"; "80"] = PyStr.join ", " ["22"; "80"] ∧
  ["22"; "80"] = ["22"; "80"].
Proof.
  split; [reflexivity|]. split; [reflexivity|].
  split; [discriminate|]. split; [discriminate|]. split; [reflexivity|].
  apply (ports_detail_determines_ports
           ["tcp 0 0 0.0.0.0:22 0.0.0.0:* LISTEN 1/sshd";
            "tcp 0 0 0.0.0.0:80 0.0.0.0:* LISTEN 2/nginx"]
           ["udp 0 0 0.0.0.0:53 0.0.0.0:*";
            "tcp  0  0  0.0.0.0:22:9  0.0.0.0:*  LISTEN";
            "tcp 0 0 127.0.0.1:25 0.0.0.0:* LISTEN";
            "tcp 0 0 0.0.0.0:80 0.0.0.0:* LISTEN"]
           ["22"; "80"] ["22"; "80"] [] []);
    [reflexivity | reflexivity | discriminate | discriminate | reflexivity].
Defined.


(** X12: [w.split(":")] is never empty, so the subscript [[0]] of line 103
    cannot raise and gives the part of [w] before its first colon; the
    subscript [[1]] of line 102 raises [IndexError] exactly when [w] has no
    colon; no piece has a colon, and joining the pieces with [":"] gives [w]
    back. *)
Theorem split_on_colon (w : string) :
  (∀ s, item (PyStr.split_on ":" w) 0 s = (Return (PyStr.upto ":" w), s)) ∧
  Forall (fun piece => no_char ":" piece = true) (PyStr.split_on ":" w) ∧
  PyStr.join ":" (PyStr.split_on ":" w) = w ∧
  ((∀ s, item (PyStr.split_on ":" w) 1 s = (Raise IndexError, s)) ↔
   no_char ":" w = true).
Proof.
  split; [|split; [|split]].
  - intros s. unfold item. by rewrite split_on_hd.
  - by apply split_on_from_pieces.
  - unfold PyStr.split_on. by rewrite split_on_from_join.
  - rewrite <- after_none. unfold item. rewrite split_on_snd.
    destruct (PyStr.after ":" w) as [r|]; simpl; [|done].
    split; [|done]. intros H. by specialize (H []).
Qed.

(** X13: unless the option [dumptable] is the integer 1 (it is missing, 0,
    or any other number), no run records a dump, whatever the command
    gave. *)
Theorem exec_scan_no_dump (self : OSPDnetstat) (scan_id target : string) :
  is_1 (get_scan_options self scan_id !! "dumptable") = false ->
  logs_named "Netstat dump" (exec_scan self scan_id target []).2 = [].
Proof.
  intros Hd.
  destruct (exec_scan_cases self scan_id target [])
    as [[_ He]|[(result & _ & _ & He)|(result & _ & _ & He)]];
    rewrite He; cbn [snd]; rewrite ?app_nil_l; try done.
  by rewrite completed_dump, Hd.
Qed.

Lemma exec_scan_no_dump_witness :
  is_1 (get_scan_options (daemon {["dumptable" := 2]} (Some [sshd_line]))
          "scan-1" !! "dumptable") = false ∧
  logs_named "Netstat dump"
    (exec_scan (daemon {["dumptable" := 2]} (Some [sshd_line]))
       "scan-1" "192.0.2.7" []).2 = [].
Proof.
  split; [reflexivity|].
  apply (exec_scan_no_dump (daemon {["dumptable" := 2]} (Some [sshd_line]))
           "scan-1" "192.0.2.7").
  reflexivity.
Defined.

(** X14: a run records errors exactly when the command gave [None], and
    then it records the two error texts and nothing else. *)
Theorem exec_scan_errors_iff (self : OSPDnetstat) (scan_id target : string) :
  (errors (exec_scan self scan_id target []).2 ≠ [] ↔
   run_command self scan_id target "netstat -tlpn" = None) ∧
  (errors (exec_scan self scan_id target []).2 = [] ∨
   (exec_scan self scan_id target []).2 = absent_entries scan_id target).
Proof.
  destruct (exec_scan_cases self scan_id target [])
    as [[Hrun He]|[(result & Hrun & _ & He)|(result & Hrun & _ & He)]];
    rewrite He, Hrun; cbn [snd]; rewrite ?app_nil_l.
  - split; [done|by right].
  - split; [done|by left].
  - rewrite completed_errors. split; [done|by left].
Qed.

(** X15: on a result without a line that breaks the loop, [exec_scan]
    returns 1 and appends, in this order: the summary with the number of
    found ports, one port log per found port in line order, the dump when
    [dumptable] is 1, and the host details ["ports"] and ["tcp_ports"]
    with the same join when a port was found. *)
Theorem exec_scan_completed_entries (self : OSPDnetstat)
  (scan_id target : string) (result : list string) (s : list entry) :
  run_command self scan_id target "netstat -tlpn" = Some result ->
  Forall (fun line => ¬ breaks line) result ->
  exec_scan self scan_id target s
  = (Return 1,
     s ++ [ScanLog scan_id target "Netstat summary"
             (Value (summary_text (length (found_ports result))))]
       ++ ((fun port => ScanLog scan_id target "Netstat port" (port_log port))
             <$> found_ports result)
       ++ (if is_1 (get_scan_options self scan_id !! "dumptable")
           then [ScanLog scan_id target "Netstat dump"
                   (Value (dump_text result))]
           else [])
       ++ (match found_ports result with
           | [] => []
           | _ =>
               [HostDetail scan_id target "ports"
                  (PyStr.join ", " (found_ports result));
                HostDetail scan_id target "tcp_ports"
                  (PyStr.join ", " (found_ports result))]
           end)).
Proof.
  intros Hrun Hok%has_broken_false_iff.
  rewrite (exec_scan_completed _ _ _ result) by done.
  unfold completed_entries, port_log. by destruct (found_ports result).
Qed.

Lemma exec_scan_completed_entries_witness :
  run_command (daemon {["dumptable" := 1]} (Some [sshd_line; nginx_line]))
    "scan-1" "192.0.2.7" "netstat -tlpn" = Some [sshd_line; nginx_line] ∧
  Forall (fun line => ¬ breaks line) [sshd_line; nginx_line] ∧
  exec_scan (daemon {["dumptable" := 1]} (Some [sshd_line; nginx_line]))
    "scan-1" "192.0.2.7" []
  = (Return 1,
     [] ++ [ScanLog "scan-1" "192.0.2.7" "Netstat summary"
              (Value (summary_text
                        (length (found_ports [sshd_line; nginx_line]))))]
        ++ ((fun port => ScanLog "scan-1" "192.0.2.7" "Netstat port"
                           (port_log port))
              <$> found_ports [sshd_line; nginx_line])
        ++ (if is_1 (get_scan_options
                       (daemon {["dumptable" := 1]}
                          (Some [sshd_line; nginx_line]))
                       "scan-1" !! "dumptable")
            then [ScanLog "scan-1" "192.0.2.7" "Netstat dump"
                    (Value (dump_text [sshd_line; nginx_line]))]
            else [])
        ++ (match found_ports [sshd_line; nginx_line] with
            | [] => []
            | _ =>
                [HostDetail "scan-1" "192.0.2.7" "ports"
                   (PyStr.join ", " (found_ports [sshd_line; nginx_line]));
                 HostDetail "scan-1" "192.0.2.7" "tcp_ports"
                   (PyStr.join ", " (found_ports [sshd_line; nginx_line]))]
            end)).
Proof.
  assert (Forall (fun line => ¬ breaks line) [sshd_line; nginx_line]) as Hok.
  { apply has_broken_false_iff. reflexivity. }
  split; [reflexivity|]. split; [exact Hok|].
  apply (exec_scan_completed_entries
           (daemon {["dumptable" := 1]} (Some [sshd_line; nginx_line]))
           "scan-1" "192.0.2.7" [sshd_line; nginx_line] []);
    [reflexivity | exact Hok].
Defined.

(** X16: a whitespace character between two parts of a line separates
    their fields. So a whitespace character at the start or the end of a
    line, such as the line feed that ends a line of output, changes neither
    its fields nor what the loop body does with it. *)
Theorem scan_line_ignores_line_end (c : ascii) (line : string) :
  PyStr.isspace c = true ->
  (∀ rest,
     PyStr.split (line +:+ String c rest)
     = PyStr.split line ++ PyStr.split rest) ∧
  PyStr.split (line +:+ String c "") = PyStr.split line ∧
  PyStr.split (String c line) = PyStr.split line ∧
  (∀ tcp_ports s,
     scan_line (line +:+ String c "") tcp_ports s
     = scan_line line tcp_ports s).
Proof.
  intros Hc.
  assert (PyStr.split (line +:+ String c "") = PyStr.split line) as Hend.
  { unfold PyStr.split. rewrite split_from_space by done.
    by rewrite app_nil_r. }
  split; [|split; [|split]].
  - intros rest. unfold PyStr.split at 1. by rewrite split_from_space.
  - done.
  - unfold PyStr.split. simpl. by rewrite Hc.
  - intros tcp_ports s. rewrite !scan_line_classify. unfold classify.
    by rewrite Hend.
Qed.

Lemma scan_line_ignores_line_end_witness :
  PyStr.isspace "010" = true ∧
  (∀ rest,
     PyStr.split (sshd_line +:+ String "010" rest)
     = PyStr.split sshd_line ++ PyStr.split rest) ∧
  PyStr.split (sshd_line +:+ String "010" "") = PyStr.split sshd_line ∧
  PyStr.split (String "010" sshd_line) = PyStr.split sshd_line ∧
  (∀ tcp_ports s,
     scan_line (sshd_line +:+ String "010" "") tcp_ports s
     = scan_line sshd_line tcp_ports s).
Proof.
  split; [reflexivity|].
  apply (scan_line_ignores_line_end "010" sshd_line). reflexivity.
Defined.
